(** * LineFollower: reflectance sensor array and bump switches

    A shallow embedding of [Reflectance.c] and [BumpInt.c] (TI-RSLK robot,
    MSP432).  C integers are modelled as [Z] with the conversions written
    out; undefined behaviour of the C abstract machine (division by zero,
    signed overflow, an out-of-bounds index) is an explicit fault; the
    memory-mapped registers are a store threaded through a state monad. *)

From Stdlib Require Import ZArith List Bool Lia.
Import ListNotations.

Local Open Scope Z_scope.

(* ===================================================================== *)
(** ** C integer model *)
(* ===================================================================== *)

Module CInt.

(** Ways in which a C expression can leave defined behaviour. *)
Inductive fault : Type :=
| DivideByZero
| SignedOverflow
| OutOfBounds.

Inductive result (A : Type) : Type :=
| Ok (a : A)
| Undefined (f : fault).
Arguments Ok {A} a.
Arguments Undefined {A} f.

Definition bind {A B : Type} (r : result A) (k : A -> result B) : result B :=
  match r with
  | Ok a => k a
  | Undefined f => Undefined f
  end.

Definition INT32_MIN : Z := - 2 ^ 31.
Definition INT32_MAX : Z := 2 ^ 31 - 1.

Definition in_int32 (z : Z) : bool := (INT32_MIN <=? z) && (z <=? INT32_MAX).

(** Conversion to [uint8_t] / [uint32_t]: reduction modulo 2^8 / 2^32. *)
Definition to_uint8 (z : Z) : Z := z mod 2 ^ 8.
Definition to_uint32 (z : Z) : Z := z mod 2 ^ 32.

(** Signed 32-bit [+], [*] and [/]: overflow and a zero divisor are
    undefined; [/] truncates toward zero. *)
Definition add32 (a b : Z) : result Z :=
  if in_int32 (a + b) then Ok (a + b) else Undefined SignedOverflow.

Definition mul32 (a b : Z) : result Z :=
  if in_int32 (a * b) then Ok (a * b) else Undefined SignedOverflow.

Definition div32 (a b : Z) : result Z :=
  if b =? 0 then Undefined DivideByZero
  else if (a =? INT32_MIN) && (b =? -1) then Undefined SignedOverflow
  else Ok (Z.quot a b).

(** [a[i]] on an array of [int32_t]. *)
Definition index (a : list Z) (i : nat) : result Z :=
  match nth_error a i with
  | Some x => Ok x
  | None => Undefined OutOfBounds
  end.

(** [for (i = from; i < from + count; i++) body], threading the locals. *)
Fixpoint for_loop {L : Type} (from count : nat)
         (body : nat -> L -> result L) (locals : L) : result L :=
  match count with
  | O => Ok locals
  | S n => bind (body from locals) (for_loop (S from) n body)
  end.

End CInt.

Import CInt.

Declare Scope cint_scope.
Delimit Scope cint_scope with cint.
Notation "x <- c1 ;; c2" := (CInt.bind c1 (fun x => c2))
  (at level 61, c1 at next level, right associativity) : cint_scope.

(* ===================================================================== *)
(** ** Reflectance.c: sensor integration *)
(* ===================================================================== *)

Module Position.

Local Open Scope cint_scope.

(** [int32_t w[] = {-33400,-23800,-14300,-4800,4800,14300,23800,33400};] *)
Definition w : list Z :=
  [-33400; -23800; -14300; -4800; 4800; 14300; 23800; 33400].

(** [b = (data>>i)&1;] stored in a [uint8_t]. *)
Definition sensor_bit (data : Z) (i : nat) : Z :=
  to_uint8 (Z.land (Z.shiftr data (Z.of_nat i)) 1).

(** Body of the [for] loop; the locals are [(weightsum, bitsum)]. *)
Definition loop_body (data : Z) (i : nat) (locals : Z * Z) : result (Z * Z) :=
  let '(weightsum, bitsum) := locals in
  let b := sensor_bit data i in
  wi <- index w i ;;
  p <- mul32 b wi ;;
  weightsum' <- add32 weightsum p ;;
  bitsum' <- add32 bitsum b ;;
  Ok (weightsum', bitsum').

(** [int32_t Reflectance_Position(uint8_t data)]. *)
Definition Reflectance_Position (data : Z) : result Z :=
  locals <- for_loop 0 8 (loop_body data) (0, 0) ;;
  let '(weightsum, bitsum) := locals in
  position <- div32 weightsum bitsum ;;
  Ok position.

(** The two sums the loop is meant to accumulate over the sensors
    [from .. from+count-1], written without the machine arithmetic. *)
Fixpoint wsum (data : Z) (from count : nat) : Z :=
  match count with
  | O => 0
  | S n => sensor_bit data from * nth from w 0 + wsum data (S from) n
  end.

Fixpoint bsum (data : Z) (from count : nat) : Z :=
  match count with
  | O => 0
  | S n => sensor_bit data from + bsum data (S from) n
  end.

(** Differences between neighbouring entries of a table. *)
Fixpoint gaps (l : list Z) : list Z :=
  match l with
  | a :: (b :: _) as rest => (b - a) :: gaps rest
  | _ => []
  end.

End Position.

(* ===================================================================== *)
(** ** Memory-mapped registers and the device monad *)
(* ===================================================================== *)

Module Hw.

Inductive Port : Type := P4 | P5 | P7 | P9.

Inductive Field : Type :=
| SEL0 | SEL1 | DIR | REN | DS | OUT | IN | IES | IFG | IE.

(** [GPIO P7 DIR] is [P7->DIR]; [NVIC_IP n] is [NVIC->IP[n]] and
    [NVIC_ISER n] is [NVIC->ISER[n]]. *)
Inductive Reg : Type :=
| GPIO (p : Port) (f : Field)
| NVIC_IP (n : nat)
| NVIC_ISER (n : nat).

Definition Port_eq_dec : forall a b : Port, {a = b} + {a <> b}.
Proof. decide equality. Defined.

Definition Field_eq_dec : forall a b : Field, {a = b} + {a <> b}.
Proof. decide equality. Defined.

Definition Reg_eq_dec : forall a b : Reg, {a = b} + {a <> b}.
Proof.
  decide equality; auto using Port_eq_dec, Field_eq_dec, Nat.eq_dec.
Defined.

(** What the hardware has been told so far, most recent first: every
    register store and every busy-wait. *)
Inductive Event : Type :=
| EvStore (r : Reg) (v : Z)
| EvDelay (us : Z).

(** [regs] is the content of the registers the program stores to;
    [pins p history] is the level of the eight pins of port [p] as the
    physical world presents it after [history]; [irq] is the core's global
    interrupt enable. *)
Record Device : Type := mkDevice {
  regs : Reg -> Z;
  history : list Event;
  pins : Port -> list Event -> Z;
  irq : bool
}.

(** The GPIO registers are 8 bits wide, the NVIC registers used with
    32-bit masks. *)
Definition truncate (r : Reg) (v : Z) : Z :=
  match r with
  | GPIO _ _ => to_uint8 v
  | NVIC_IP _ | NVIC_ISER _ => to_uint32 v
  end.

Definition M (A : Type) : Type := Device -> A * Device.

Definition ret {A : Type} (a : A) : M A := fun d => (a, d).

Definition bind {A B : Type} (m : M A) (k : A -> M B) : M B :=
  fun d => let '(a, d') := m d in k a d'.

(** A load of [Pn->IN] samples the pins; any other load returns what was
    stored last. *)
Definition load (r : Reg) : M Z :=
  fun d =>
    match r with
    | GPIO p IN => (to_uint8 (pins d p (history d)), d)
    | _ => (regs d r, d)
    end.

Definition store (r : Reg) (v : Z) : M unit :=
  fun d =>
    let v' := truncate r v in
    (tt, mkDevice (fun r' => if Reg_eq_dec r' r then v' else regs d r')
                  (EvStore r v' :: history d)
                  (pins d)
                  (irq d)).

(** Modelled from the spec: [Clock_Delay1us] is defined in Clock.c, which
    this repository does not contain; the spec describes it as "a
    microsecond-granularity busy-wait delay primitive, assumed accurate and
    blocking".  It changes no register; the elapsed time is recorded for
    the physical world to see. *)
Definition Clock_Delay1us (n : Z) : M unit :=
  fun d =>
    (tt, mkDevice (regs d) (EvDelay (to_uint32 n) :: history d) (pins d) (irq d)).

(** Modelled from the spec: [EnableInterrupts] is declared in CortexM.h,
    which this repository does not contain; the spec says that
    initialization "enables both the peripheral-level and global interrupt
    paths". *)
Definition EnableInterrupts : M unit :=
  fun d => (tt, mkDevice (regs d) (history d) (pins d) true).

(** Every GPIO register holds an 8-bit value. *)
Definition regs8 (d : Device) : Prop :=
  forall p f, 0 <= regs d (GPIO p f) < 2 ^ 8.

(** A device in which nothing has happened yet: all registers cleared and
    pins whose level does not move. *)
Definition idle_device (level : Port -> Z) : Device :=
  mkDevice (fun _ => 0) [] (fun p _ => level p) false.

End Hw.

Import Hw.

Declare Scope dev_scope.
Delimit Scope dev_scope with dev.
Notation "x <- c1 ;; c2" := (Hw.bind c1 (fun x => c2))
  (at level 61, c1 at next level, right associativity) : dev_scope.
Notation "c1 ;; c2" := (Hw.bind c1 (fun _ => c2))
  (at level 61, right associativity) : dev_scope.
Notation "r ::= v" := (store r v) (at level 60, no associativity) : dev_scope.
Notation "r |= v" := (Hw.bind (load r) (fun x => store r (Z.lor x v)))
  (at level 60, no associativity) : dev_scope.
Notation "r &= v" := (Hw.bind (load r) (fun x => store r (Z.land x v)))
  (at level 60, no associativity) : dev_scope.
(** [~c] on an [int] constant. *)
Notation "~~ v" := (Z.lnot v) (at level 35, right associativity) : dev_scope.

(* ===================================================================== *)
(** ** Reflectance.c: the sensing protocol *)
(* ===================================================================== *)

Module Reflectance.

Local Open Scope dev_scope.

Definition Reflectance_Init : M unit :=
  GPIO P5 SEL0 &= ~~0x08 ;;
  GPIO P5 SEL1 &= ~~0x08 ;;
  GPIO P5 DIR |= 0x08 ;;
  GPIO P5 DS |= 0x08 ;;
  GPIO P5 OUT &= ~~0x08 ;;

  GPIO P9 SEL0 &= ~~0x04 ;;
  GPIO P9 SEL1 &= ~~0x04 ;;
  GPIO P9 DIR |= 0x04 ;;
  GPIO P9 DS |= 0x04 ;;
  GPIO P9 OUT &= ~~0x04 ;;

  GPIO P7 SEL0 &= ~~0xFF ;;
  GPIO P7 SEL1 &= ~~0xFF ;;
  GPIO P7 DIR &= ~~0xFF ;;
  GPIO P7 REN &= ~~0xFF.

Definition Reflectance_Read (time : Z) : M Z :=
  GPIO P5 OUT |= 0x08 ;;
  GPIO P9 OUT |= 0x04 ;;
  GPIO P7 DIR ::= 0xFF ;;
  GPIO P7 OUT ::= 0xFF ;;
  Clock_Delay1us 10 ;;
  GPIO P7 DIR ::= 0x00 ;;
  Clock_Delay1us time ;;
  result <- load (GPIO P7 IN) ;;
  GPIO P5 OUT &= ~~0x08 ;;
  GPIO P9 OUT &= ~~0x04 ;;
  ret result.

Definition Reflectance_Center (time : Z) : M Z :=
  GPIO P5 OUT |= 0x08 ;;
  GPIO P9 OUT |= 0x04 ;;
  GPIO P7 DIR ::= 0xFF ;;
  GPIO P7 OUT ::= 0xFF ;;
  Clock_Delay1us 10 ;;
  GPIO P7 DIR ::= 0x00 ;;
  Clock_Delay1us time ;;
  p7in <- load (GPIO P7 IN) ;;
  let result := to_uint8 (Z.shiftr (Z.land p7in 0x18) 3) in
  GPIO P5 OUT &= ~~0x08 ;;
  GPIO P9 OUT &= ~~0x04 ;;
  ret result.

Definition Reflectance_Start : M unit :=
  GPIO P5 OUT |= 0x08 ;;
  GPIO P9 OUT |= 0x04 ;;
  GPIO P7 DIR ::= 0xFF ;;
  GPIO P7 OUT ::= 0xFF ;;
  Clock_Delay1us 10 ;;
  GPIO P7 DIR ::= 0x00.

Definition Reflectance_End : M Z :=
  result <- load (GPIO P7 IN) ;;
  GPIO P5 OUT &= ~~0x08 ;;
  GPIO P9 OUT &= ~~0x04 ;;
  ret result.

(** The split-phase use of the sensor: start, let [time] microseconds
    pass, finish. *)
Definition Start_wait_End (time : Z) : M Z :=
  Reflectance_Start ;;
  Clock_Delay1us time ;;
  Reflectance_End.

(** The device at the instant the pins are sampled: LEDs on, capacitors
    charged for 10 us, pins released, [time] us elapsed. *)
Definition at_sampling (time : Z) (d : Device) : Device :=
  snd ((Reflectance_Start ;; Clock_Delay1us time) d).

(** What [P7->IN] reads at that instant. *)
Definition sampled_pins (time : Z) (d : Device) : Z :=
  fst (load (GPIO P7 IN) (at_sampling time d)).

End Reflectance.

(* ===================================================================== *)
(** ** BumpInt.c *)
(* ===================================================================== *)

Module Bump.

Local Open Scope dev_scope.

Definition BumpInt_Init : M unit :=
  GPIO P4 SEL0 &= ~~0xED ;;
  GPIO P4 SEL1 &= ~~0xED ;;
  GPIO P4 DIR &= ~~0xED ;;
  GPIO P4 REN |= 0xED ;;
  GPIO P4 OUT |= 0xED ;;

  GPIO P4 IES |= 0xED ;;
  GPIO P4 IFG &= ~~0xED ;;
  GPIO P4 IE |= 0xED ;;
  (ip9 <- load (NVIC_IP 9) ;;
   NVIC_IP 9 ::= Z.lor (Z.land ip9 0xFF0FFFFF) 0x00200000) ;;
  NVIC_ISER 1 ::= 0x00000040 ;;
  EnableInterrupts.

Definition Bump_Read : M Z :=
  ret 0.

(** The read the spec asks for, written from its words (it is not what
    [Bump_Read] computes): take the six pins P4.0, P4.2, P4.3, P4.5, P4.6
    and P4.7, invert the polarity, and pack them into bits 0 to 5, bit 0
    the rightmost switch (P4.0) and bit 5 the leftmost (P4.7). *)
Definition bump_pins : list Z := [0; 2; 3; 5; 6; 7].

Fixpoint repack (p4in : Z) (positions : list Z) (k : Z) : Z :=
  match positions with
  | [] => 0
  | pos :: rest =>
      Z.b2z (negb (Z.testbit p4in pos)) * 2 ^ k + repack p4in rest (k + 1)
  end.

Definition Bump_Read_contract (p4in : Z) : Z := repack p4in bump_pins 0.

End Bump.

Import Position Reflectance Bump.

(* ===================================================================== *)
(** ** Vocabulary for the properties *)
(* ===================================================================== *)

(** The sensors a snapshot reports as set, lowest index first. *)
Definition lit_sensors (data : Z) : list nat :=
  filter (fun i => Z.testbit data (Z.of_nat i)) (seq 0 8).

Definition sumZ (l : list Z) : Z := fold_right Z.add 0 l.

(** The weights of the sensors a snapshot reports as set. *)
Definition lit_weights (data : Z) : list Z :=
  map (fun i => nth i w 0) (lit_sensors data).

(** The device a driver call leaves behind. *)
Definition after {A : Type} (m : M A) (d : Device) : Device := snd (m d).

(** Bit [k] of register [r]. *)
Definition reg_bit (d : Device) (r : Reg) (k : Z) : bool := Z.testbit (regs d r) k.

(* ===================================================================== *)
(** ** Sensor integration: what the loop computes *)
(* ===================================================================== *)

Section PositionLoop.

Variable data : Z.

Lemma sensor_bit_testbit (i : nat) :
  sensor_bit data i = Z.b2z (Z.testbit data (Z.of_nat i)).
Proof.
  unfold sensor_bit, to_uint8.
  change 1 with (Z.ones 1).
  rewrite Z.land_ones by lia.
  change (2 ^ 1) with 2.
  rewrite <- Z.bit0_mod, Z.shiftr_spec, Z.add_0_l by lia.
  destruct (Z.testbit data (Z.of_nat i)); reflexivity.
Qed.

Lemma sensor_bit_01 (i : nat) : sensor_bit data i = 0 \/ sensor_bit data i = 1.
Proof.
  rewrite sensor_bit_testbit.
  destruct (Z.testbit data (Z.of_nat i)); auto.
Qed.

Lemma w_index (i : nat) :
  (i < 8)%nat -> index w i = Ok (nth i w 0) /\ -33400 <= nth i w 0 <= 33400.
Proof.
  intros Hi.
  do 8 (destruct i as [|i]; [split; [reflexivity | simpl; lia] |]).
  lia.
Qed.

Lemma bsum_range (count from : nat) : 0 <= bsum data from count <= Z.of_nat count.
Proof.
  revert from; induction count as [|n IH]; intros from; cbn [bsum].
  - lia.
  - specialize (IH (S from)).
    destruct (sensor_bit_01 from) as [E|E]; rewrite E; lia.
Qed.

Lemma wsum_range (count from : nat) :
  (from + count <= 8)%nat ->
  -33400 * bsum data from count <= wsum data from count <= 33400 * bsum data from count.
Proof.
  revert from; induction count as [|n IH]; intros from Hle; cbn [wsum bsum].
  - lia.
  - specialize (IH (S from) ltac:(lia)).
    destruct (w_index from ltac:(lia)) as [_ Hw].
    destruct (sensor_bit_01 from) as [E|E]; rewrite E; lia.
Qed.

Lemma in_int32_small (z : Z) : -300000 <= z <= 300000 -> in_int32 z = true.
Proof.
  intros H; unfold in_int32, INT32_MIN, INT32_MAX.
  apply andb_true_iff; split; apply Z.leb_le; lia.
Qed.

(** No arithmetic of the loop overflows, and the locals end up holding the
    two sums. *)
Lemma for_loop_sums (count from : nat) (weightsum bitsum : Z) :
  (from + count <= 8)%nat ->
  0 <= bitsum <= Z.of_nat from ->
  -33400 * bitsum <= weightsum <= 33400 * bitsum ->
  for_loop from count (loop_body data) (weightsum, bitsum)
  = Ok (weightsum + wsum data from count, bitsum + bsum data from count).
Proof.
  revert from weightsum bitsum.
  induction count as [|n IH]; intros from weightsum bitsum Hle Hb Hws.
  - cbn [for_loop wsum bsum]. now rewrite !Z.add_0_r.
  - cbn [for_loop wsum bsum]. unfold loop_body at 1.
    destruct (w_index from ltac:(lia)) as [-> Hw].
    pose proof (sensor_bit_01 from) as Hbit.
    set (b := sensor_bit data from) in *.
    set (wi := nth from w 0) in *.
    assert (Hp : -33400 <= b * wi <= 33400) by (destruct Hbit as [E|E]; rewrite E; lia).
    unfold mul32, add32. cbn [CInt.bind].
    rewrite (in_int32_small (b * wi)) by lia. cbn [CInt.bind].
    rewrite (in_int32_small (weightsum + b * wi)) by lia. cbn [CInt.bind].
    rewrite (in_int32_small (bitsum + b)) by lia. cbn [CInt.bind].
    rewrite IH.
    + f_equal. f_equal; lia.
    + lia.
    + lia.
    + destruct Hbit as [E|E]; rewrite E in *; lia.
Qed.

(** [Reflectance_Position] is the truncating quotient of the two sums. *)
Lemma Reflectance_Position_sums :
  Reflectance_Position data = div32 (wsum data 0 8) (bsum data 0 8).
Proof.
  unfold Reflectance_Position.
  rewrite for_loop_sums by (simpl; lia).
  cbn [CInt.bind]. rewrite !Z.add_0_l.
  destruct (div32 (wsum data 0 8) (bsum data 0 8)); reflexivity.
Qed.

(** An 8-bit snapshot with no sensor bit set is zero. *)
Lemma bsum_zero_data : 0 <= data < 256 -> bsum data 0 8 = 0 -> data = 0.
Proof.
  intros Hr Hz.
  assert (Hbits : forall i, (i < 8)%nat -> Z.testbit data (Z.of_nat i) = false).
  { intros i Hi.
    assert (Hb : sensor_bit data i = 0).
    { cbn [bsum] in Hz.
      pose proof (sensor_bit_01 0); pose proof (sensor_bit_01 1);
      pose proof (sensor_bit_01 2); pose proof (sensor_bit_01 3);
      pose proof (sensor_bit_01 4); pose proof (sensor_bit_01 5);
      pose proof (sensor_bit_01 6); pose proof (sensor_bit_01 7).
      do 8 (destruct i as [|i]; [lia|]). lia. }
    rewrite sensor_bit_testbit in Hb.
    destruct (Z.testbit data (Z.of_nat i)); [discriminate | reflexivity]. }
  apply Z.bits_inj'; intros k Hk.
  rewrite Z.bits_0.
  destruct (Z_lt_le_dec k 8) as [Hlt|Hge].
  - rewrite <- (Z2Nat.id k) by lia. apply Hbits. lia.
  - rewrite <- (Z.mod_small data (2 ^ 8)) by (change (2 ^ 8) with 256; lia).
    apply Z.mod_pow2_bits_high. lia.
Qed.

End PositionLoop.

(* ===================================================================== *)
(** ** Sensor integration: properties of [Reflectance_Position] *)
(* ===================================================================== *)

Lemma div32_pos (a b : Z) : 0 < b -> div32 a b = Ok (Z.quot a b).
Proof.
  intros Hb. unfold div32.
  destruct (Z.eqb_spec b 0) as [E|_]; [lia|].
  destruct (Z.eqb_spec b (-1)) as [E|_]; [lia|].
  now rewrite andb_false_r.
Qed.

Lemma bsum_pos (data : Z) : 0 <= data < 256 -> data <> 0 -> 0 < bsum data 0 8.
Proof.
  intros Hr Hnz.
  pose proof (bsum_range data 8 0) as Hb.
  destruct (Z.eq_dec (bsum data 0 8) 0) as [E|E]; [|lia].
  exfalso. apply Hnz. now apply bsum_zero_data.
Qed.

Lemma quot_between (a b m : Z) :
  0 < b -> - m * b <= a <= m * b -> - m <= Z.quot a b <= m.
Proof.
  intros Hb [Hlo Hhi]. split.
  - rewrite <- (Z.quot_mul (- m) b) by lia. apply Z.quot_le_mono; lia.
  - rewrite <- (Z.quot_mul m b) by lia. apply Z.quot_le_mono; lia.
Qed.

(** C1.  On the snapshot with no bit set the loop leaves [bitsum = 0] and the
    function reaches [weightsum/bitsum] with a zero divisor: the behaviour is
    undefined, there is neither a guard nor a sentinel. *)
Theorem Reflectance_Position_no_bits_divides_by_zero :
  for_loop 0 8 (loop_body 0) (0, 0) = Ok (0, 0) /\
  Reflectance_Position 0 = Undefined DivideByZero.
Proof. split; reflexivity. Qed.

(** Among 8-bit snapshots, the empty one is the only one on which the
    division is undefined. *)
Lemma Reflectance_Position_defined (data : Z) :
  0 <= data < 256 -> data <> 0 ->
  Reflectance_Position data = Ok (Z.quot (wsum data 0 8) (bsum data 0 8)).
Proof.
  intros Hr Hnz.
  rewrite Reflectance_Position_sums.
  apply div32_pos. now apply bsum_pos.
Qed.

(** C2.  Mirroring the snapshot left to right (bit [i] of the mirrored
    snapshot is bit [7-i] of the original) negates the position. *)
Theorem Reflectance_Position_mirror (data mirrored : Z) :
  0 <= data < 256 -> 0 <= mirrored < 256 -> data <> 0 ->
  (forall i, 0 <= i <= 7 -> Z.testbit mirrored i = Z.testbit data (7 - i)) ->
  exists p, Reflectance_Position data = Ok p /\
            Reflectance_Position mirrored = Ok (- p).
Proof.
  intros Hd Hm Hnz Hmir.
  assert (Hbit : forall i, (i < 8)%nat ->
                           sensor_bit mirrored i = sensor_bit data (7 - i)).
  { intros i Hi. rewrite !sensor_bit_testbit, Hmir by lia.
    do 2 f_equal. lia. }
  assert (Hw : wsum mirrored 0 8 = - wsum data 0 8).
  { cbn [wsum]. rewrite !Hbit by lia. cbn [Nat.sub nth w]. ring. }
  assert (Hb : bsum mirrored 0 8 = bsum data 0 8).
  { cbn [bsum]. rewrite !Hbit by lia. cbn [Nat.sub]. ring. }
  pose proof (bsum_pos data Hd Hnz) as Hpos.
  exists (Z.quot (wsum data 0 8) (bsum data 0 8)). split.
  - now apply Reflectance_Position_defined.
  - rewrite Reflectance_Position_sums, Hw, Hb, div32_pos by assumption.
    f_equal. apply Z.quot_opp_l. lia.
Qed.

Lemma Reflectance_Position_mirror_witness :
  exists p, Reflectance_Position 0x03 = Ok p /\
            Reflectance_Position 0xC0 = Ok (- p).
Proof.
  apply (Reflectance_Position_mirror 0x03 0xC0); try lia.
  intros i Hi.
  assert (Hc : i = 0 \/ i = 1 \/ i = 2 \/ i = 3 \/
               i = 4 \/ i = 5 \/ i = 6 \/ i = 7) by lia.
  repeat destruct Hc as [-> | Hc]; try subst i; reflexivity.
Defined.

(** C3.  A snapshot with the single bit [i] set yields the [i]-th weight of
    the table; bit 0 alone yields -33400 and bit 7 alone +33400. *)
Theorem Reflectance_Position_single_bit (i : nat) :
  (i < 8)%nat ->
  Reflectance_Position (2 ^ Z.of_nat i) = index w i /\
  Reflectance_Position (2 ^ Z.of_nat i) = Ok (nth i w 0) /\
  Reflectance_Position 0x01 = Ok (-33400) /\
  Reflectance_Position 0x80 = Ok 33400.
Proof.
  intros Hi.
  do 8 (destruct i as [|i]; [repeat split; reflexivity |]).
  lia.
Qed.

Lemma Reflectance_Position_single_bit_witness :
  Reflectance_Position (2 ^ Z.of_nat 3) = index w 3 /\
  Reflectance_Position (2 ^ Z.of_nat 3) = Ok (nth 3 w 0) /\
  Reflectance_Position 0x01 = Ok (-33400) /\
  Reflectance_Position 0x80 = Ok 33400.
Proof.
  apply (Reflectance_Position_single_bit 3). lia.
Defined.

(** C4.  With all eight bits set the position is exactly 0. *)
Theorem Reflectance_Position_all_bits :
  Reflectance_Position 0xFF = Ok 0.
Proof. reflexivity. Qed.

(** C9.  On every 8-bit snapshot with at least one bit set the position is
    defined and lies between the extreme weights -33400 and +33400. *)
Theorem Reflectance_Position_range (data : Z) :
  0 <= data < 256 -> data <> 0 ->
  exists p, Reflectance_Position data = Ok p /\ -33400 <= p <= 33400.
Proof.
  intros Hr Hnz.
  eexists; split; [now apply Reflectance_Position_defined|].
  apply (quot_between (wsum data 0 8) (bsum data 0 8) 33400).
  - now apply bsum_pos.
  - apply (wsum_range data 8 0). lia.
Qed.

Lemma Reflectance_Position_range_witness :
  exists p, Reflectance_Position 0x07 = Ok p /\ -33400 <= p <= 33400.
Proof.
  apply (Reflectance_Position_range 0x07); lia.
Defined.

(* ===================================================================== *)
(** ** The calibration table *)
(* ===================================================================== *)

(** C7, as stated, fails: the table is symmetric and its extremes are
    -33400 and +33400, but it is not evenly spaced; no single constant is the
    difference of every pair of neighbours (the first gap is 9600, the
    second 9500). *)
Lemma w_not_evenly_spaced :
  ~ ((forall i, (i < 8)%nat -> nth (7 - i) w 0 = - nth i w 0) /\
     (exists c, forall i, (i < 7)%nat -> nth (S i) w 0 - nth i w 0 = c) /\
     nth 0 w 0 = -33400 /\ nth 7 w 0 = 33400).
Proof.
  intros (_ & [c Hc] & _).
  pose proof (Hc 0%nat ltac:(lia)) as H0.
  pose proof (Hc 1%nat ltac:(lia)) as H1.
  simpl in H0, H1. lia.
Qed.

(** C7, amended.  The table is symmetric about zero, its extreme values are
    -33400 and +33400, and it is strictly increasing with neighbouring
    weights 9600, 9500, 9500, 9600, 9500, 9500 and 9600 apart. *)
Theorem w_symmetric_nearly_even :
  (forall i, (i < 8)%nat -> nth (7 - i) w 0 = - nth i w 0) /\
  gaps w = [9600; 9500; 9500; 9600; 9500; 9500; 9600] /\
  nth 0 w 0 = -33400 /\ nth 7 w 0 = 33400 /\
  Forall (fun x => -33400 <= x <= 33400) w.
Proof.
  split; [|repeat split; try reflexivity].
  - intros i Hi. do 8 (destruct i as [|i]; [reflexivity|]). lia.
  - unfold w. repeat constructor; lia.
Qed.

(* ===================================================================== *)
(** ** Bit-level facts about 8-bit registers *)
(* ===================================================================== *)

Lemma testbit_beyond (n x k : Z) :
  0 <= n <= k -> 0 <= x < 2 ^ n -> Z.testbit x k = false.
Proof.
  intros Hk Hx.
  rewrite <- (Z.mod_small x (2 ^ n) Hx).
  apply Z.mod_pow2_bits_high. lia.
Qed.

Lemma testbit_above_8 (x k : Z) : 0 <= x < 256 -> 8 <= k -> Z.testbit x k = false.
Proof.
  intros Hx Hk. apply (testbit_beyond 8); [lia | exact Hx].
Qed.

Lemma to_uint8_range (x : Z) : 0 <= to_uint8 x < 256.
Proof. unfold to_uint8. apply Z.mod_pos_bound. reflexivity. Qed.

Lemma to_uint8_testbit (x k : Z) :
  0 <= k < 8 -> Z.testbit (to_uint8 x) k = Z.testbit x k.
Proof. intros Hk. unfold to_uint8. apply Z.mod_pow2_bits_low. lia. Qed.

(** Splits a bit index into the eight positions of a byte and the rest. *)
Ltac byte_index k :=
  let H := fresh "Hk" in
  assert (H : k < 0 \/ k = 0 \/ k = 1 \/ k = 2 \/ k = 3 \/ k = 4 \/
              k = 5 \/ k = 6 \/ k = 7 \/ 8 <= k) by lia;
  repeat (destruct H as [H | H]); try subst k.

(** [x &= ~0xED] and [x |= 0xED] on an 8-bit register: only bits 0, 2, 3, 5,
    6 and 7 can change. *)
Lemma clear_mask_ED (x : Z) :
  0 <= x < 256 ->
  forall k, k <> 1 -> k <> 4 -> Z.testbit (to_uint8 (Z.land x (Z.lnot 0xED))) k <> Z.testbit x k ->
            In k [0; 2; 3; 5; 6; 7].
Proof.
  intros Hx k H1 H4 Hne.
  byte_index k; simpl; try tauto; exfalso; apply Hne.
  - now rewrite !Z.testbit_neg_r.
  - rewrite !testbit_above_8; auto using to_uint8_range.
Qed.

Lemma set_mask_ED (x : Z) :
  0 <= x < 256 ->
  forall k, k <> 1 -> k <> 4 -> Z.testbit (to_uint8 (Z.lor x 0xED)) k <> Z.testbit x k ->
            In k [0; 2; 3; 5; 6; 7].
Proof.
  intros Hx k H1 H4 Hne.
  byte_index k; simpl; try tauto; exfalso; apply Hne.
  - now rewrite !Z.testbit_neg_r.
  - rewrite !testbit_above_8; auto using to_uint8_range.
Qed.

Lemma clear_mask_ED_keeps (x k : Z) :
  k = 1 \/ k = 4 -> Z.testbit (to_uint8 (Z.land x (Z.lnot 0xED))) k = Z.testbit x k.
Proof.
  intros [-> | ->]; rewrite to_uint8_testbit, Z.land_spec by lia;
    apply andb_true_r.
Qed.

Lemma set_mask_ED_keeps (x k : Z) :
  k = 1 \/ k = 4 -> Z.testbit (to_uint8 (Z.lor x 0xED)) k = Z.testbit x k.
Proof.
  intros [-> | ->]; rewrite to_uint8_testbit, Z.lor_spec by lia;
    apply orb_false_r.
Qed.

(** [(x & 0x18) >> 3] in terms of bits 3 and 4 of [x]. *)
Lemma center_bits (x : Z) :
  Z.shiftr (Z.land x 0x18) 3 = Z.b2z (Z.testbit x 3) + 2 * Z.b2z (Z.testbit x 4).
Proof.
  apply Z.bits_inj'. intros k Hk.
  rewrite Z.shiftr_spec, Z.land_spec by lia.
  assert (Hc : k = 0 \/ k = 1 \/ 2 <= k) by lia.
  destruct Hc as [-> | [-> | Hc]].
  - simpl (0 + 3). rewrite andb_true_r.
    destruct (Z.testbit x 3), (Z.testbit x 4); reflexivity.
  - simpl (1 + 3). rewrite andb_true_r.
    destruct (Z.testbit x 3), (Z.testbit x 4); reflexivity.
  - rewrite (testbit_beyond 5 0x18 (k + 3)) by (simpl; lia).
    rewrite andb_false_r. symmetry.
    apply (testbit_beyond 2); [lia|].
    destruct (Z.testbit x 3), (Z.testbit x 4); simpl; lia.
Qed.

(* ===================================================================== *)
(** ** The sensing protocol *)
(* ===================================================================== *)

Section Sensing.

Local Open Scope dev_scope.

Variable time : Z.
Variable d : Device.

Lemma sampled_pins_range : 0 <= sampled_pins time d < 256.
Proof. apply to_uint8_range. Qed.

Lemma Reflectance_Read_result : fst (Reflectance_Read time d) = sampled_pins time d.
Proof. reflexivity. Qed.

Lemma Reflectance_Center_result :
  fst (Reflectance_Center time d)
  = to_uint8 (Z.shiftr (Z.land (sampled_pins time d) 0x18) 3).
Proof. reflexivity. Qed.

(** C5.  [Reflectance_Center] returns [(P7->IN & 0x18) >> 3] of the
    sampled pins: 0 when neither P7.3 nor P7.4 is set, 1 when only P7.3
    (right center) is, 2 when only P7.4 (left center) is, 3 when both. *)
Theorem Reflectance_Center_code :
  fst (Reflectance_Center time d) = Z.shiftr (Z.land (sampled_pins time d) 0x18) 3 /\
  fst (Reflectance_Center time d)
  = match Z.testbit (sampled_pins time d) 4, Z.testbit (sampled_pins time d) 3 with
    | false, false => 0
    | false, true => 1
    | true, false => 2
    | true, true => 3
    end.
Proof.
  rewrite Reflectance_Center_result, center_bits.
  destruct (Z.testbit (sampled_pins time d) 4), (Z.testbit (sampled_pins time d) 3);
    split; reflexivity.
Qed.

(** C6.  Start, a wait of [time] microseconds, then End: the same snapshot
    and the same final device (registers, and everything the hardware was
    told) as one [Reflectance_Read time]. *)
Theorem Start_wait_End_is_Read :
  Start_wait_End time d = Reflectance_Read time d /\
  fst (Start_wait_End time d) = fst (Reflectance_Read time d) /\
  (forall r, regs (snd (Start_wait_End time d)) r
             = regs (snd (Reflectance_Read time d)) r).
Proof. repeat split. Qed.

End Sensing.

Example center_left_only :
  fst (Reflectance_Center 1000 (idle_device (fun _ => 0x10))) = 2.
Proof. reflexivity. Qed.

Example center_right_only :
  fst (Reflectance_Center 1000 (idle_device (fun _ => 0x08))) = 1.
Proof. reflexivity. Qed.

Example read_leaves_leds_off :
  let d' := snd (Reflectance_Read 1000 (idle_device (fun _ => 0x3C))) in
  fst (Reflectance_Read 1000 (idle_device (fun _ => 0x3C))) = 0x3C /\
  regs d' (GPIO P5 OUT) = 0 /\ regs d' (GPIO P9 OUT) = 0 /\
  regs d' (GPIO P7 DIR) = 0 /\ regs d' (GPIO P7 OUT) = 0xFF.
Proof. repeat split. Qed.

(* ===================================================================== *)
(** ** Bump switches *)
(* ===================================================================== *)

(** C8.  [Bump_Read] returns 0 whatever the device and its pins are, and
    touches nothing; the read the spec describes is not computed: with all
    six switches pressed (their pins low) it would be 63. *)
Theorem Bump_Read_returns_zero :
  (forall d, Bump_Read d = (0, d)) /\
  (exists d, Bump_Read_contract (fst (load (GPIO P4 IN) d)) = 63 /\
             fst (Bump_Read d) = 0).
Proof.
  split.
  - reflexivity.
  - exists (idle_device (fun _ => 0x12)). split; reflexivity.
Qed.

(** The Port 4 registers after [BumpInt_Init]. *)
Lemma BumpInt_Init_regs (d : Device) (f : Field) :
  regs (snd (BumpInt_Init d)) (GPIO P4 f)
  = match f with
    | SEL0 | SEL1 | DIR | IFG => to_uint8 (Z.land (regs d (GPIO P4 f)) (Z.lnot 0xED))
    | REN | OUT | IES | IE => to_uint8 (Z.lor (regs d (GPIO P4 f)) 0xED)
    | DS | IN => regs d (GPIO P4 f)
    end.
Proof. destruct f; reflexivity. Qed.

(** C10.  In every Port 4 register, [BumpInt_Init] can change only bits 0, 2,
    3, 5, 6 and 7 (mask 0xED); bits 1 and 4 keep their value. *)
Theorem BumpInt_Init_frame (d : Device) (f : Field) :
  regs8 d ->
  let old := regs d (GPIO P4 f) in
  let new := regs (snd (BumpInt_Init d)) (GPIO P4 f) in
  (forall k, Z.testbit new k <> Z.testbit old k -> In k [0; 2; 3; 5; 6; 7]) /\
  Z.testbit new 1 = Z.testbit old 1 /\
  Z.testbit new 4 = Z.testbit old 4.
Proof.
  intros Hwf old new.
  pose proof (Hwf P4 f) as Hx. change (2 ^ 8) with 256 in Hx. fold old in Hx.
  assert (Hkeep : forall k, k = 1 \/ k = 4 -> Z.testbit new k = Z.testbit old k).
  { intros k Hk. subst new old. rewrite BumpInt_Init_regs.
    destruct f; auto using clear_mask_ED_keeps, set_mask_ED_keeps. }
  split; [|split; apply Hkeep; auto].
  intros k Hne.
  assert (H1 : k <> 1) by (intros ->; apply Hne, Hkeep; auto).
  assert (H4 : k <> 4) by (intros ->; apply Hne, Hkeep; auto).
  subst new old. rewrite BumpInt_Init_regs in Hne.
  destruct f; try (now apply (clear_mask_ED _ Hx)); try (now apply (set_mask_ED _ Hx));
    now elim Hne.
Qed.

Lemma BumpInt_Init_frame_witness :
  let d := idle_device (fun _ => 0xFF) in
  let old := regs d (GPIO P4 REN) in
  let new := regs (snd (BumpInt_Init d)) (GPIO P4 REN) in
  (forall k, Z.testbit new k <> Z.testbit old k -> In k [0; 2; 3; 5; 6; 7]) /\
  Z.testbit new 1 = Z.testbit old 1 /\
  Z.testbit new 4 = Z.testbit old 4.
Proof.
  apply (BumpInt_Init_frame (idle_device (fun _ => 0xFF)) REN).
  intros p f. simpl. lia.
Defined.

Example BumpInt_Init_from_idle :
  let d' := snd (BumpInt_Init (idle_device (fun _ => 0xFF))) in
  regs d' (GPIO P4 REN) = 0xED /\ regs d' (GPIO P4 OUT) = 0xED /\
  regs d' (GPIO P4 IES) = 0xED /\ regs d' (GPIO P4 IE) = 0xED /\
  regs d' (GPIO P4 DIR) = 0 /\ regs d' (NVIC_IP 9) = 0x00200000 /\
  regs d' (NVIC_ISER 1) = 0x40 /\ irq d' = true.
Proof. repeat split. Qed.

(* ===================================================================== *)
(** ** More on [Reflectance_Position] *)
(* ===================================================================== *)

Lemma wsum_lit (data : Z) (count from : nat) :
  wsum data from count
  = sumZ (map (fun i => nth i w 0)
              (filter (fun i => Z.testbit data (Z.of_nat i)) (seq from count))).
Proof.
  revert from; induction count as [|n IH]; intros from; cbn [wsum seq filter].
  - reflexivity.
  - rewrite IH, sensor_bit_testbit.
    unfold sumZ.
    destruct (Z.testbit data (Z.of_nat from)); cbn [map fold_right Z.b2z]; lia.
Qed.

Lemma bsum_lit (data : Z) (count from : nat) :
  bsum data from count
  = Z.of_nat (length (filter (fun i => Z.testbit data (Z.of_nat i)) (seq from count))).
Proof.
  revert from; induction count as [|n IH]; intros from; cbn [bsum seq filter].
  - reflexivity.
  - rewrite IH, sensor_bit_testbit.
    destruct (Z.testbit data (Z.of_nat from)); cbn [length Z.b2z]; lia.
Qed.

(** X1.  The position is the mean of the weights of the set sensors, truncated
    toward zero; the empty snapshot, and only it, divides by zero. *)
Theorem Reflectance_Position_mean (data : Z) :
  0 <= data < 256 ->
  Reflectance_Position data
  = if data =? 0 then Undefined DivideByZero
    else Ok (Z.quot (sumZ (lit_weights data)) (Z.of_nat (length (lit_sensors data)))).
Proof.
  intros Hr.
  destruct (Z.eqb_spec data 0) as [-> | Hnz].
  - reflexivity.
  - rewrite Reflectance_Position_defined by assumption.
    unfold lit_weights, lit_sensors.
    now rewrite wsum_lit, bsum_lit.
Qed.

Lemma Reflectance_Position_mean_witness :
  Reflectance_Position 0x07
  = if 0x07 =? 0 then Undefined DivideByZero
    else Ok (Z.quot (sumZ (lit_weights 0x07)) (Z.of_nat (length (lit_sensors 0x07)))).
Proof.
  apply (Reflectance_Position_mean 0x07). lia.
Defined.

(** X2.  Whatever integer is passed, the function either returns a position or
    divides by zero: the loop never overflows and never indexes outside the
    table. *)
Theorem Reflectance_Position_only_fault (data : Z) :
  (exists p, Reflectance_Position data = Ok p) \/
  Reflectance_Position data = Undefined DivideByZero.
Proof.
  rewrite Reflectance_Position_sums. unfold div32.
  pose proof (bsum_range data 8 0) as Hb.
  destruct (bsum data 0 8 =? 0).
  - now right.
  - destruct (Z.eqb_spec (bsum data 0 8) (-1)) as [E|_]; [lia|].
    rewrite andb_false_r. left. eauto.
Qed.

Lemma quot_bounds (a b lo hi : Z) :
  0 < b -> lo * b <= a <= hi * b -> lo <= Z.quot a b <= hi.
Proof.
  intros Hb [Hlo Hhi]. split.
  - rewrite <- (Z.quot_mul lo b) by lia. apply Z.quot_le_mono; lia.
  - rewrite <- (Z.quot_mul hi b) by lia. apply Z.quot_le_mono; lia.
Qed.

Lemma w_increasing (i j : nat) :
  (i <= j < 8)%nat -> nth i w 0 <= nth j w 0.
Proof.
  intros Hij.
  do 8 (destruct i as [|i];
        [do 8 (destruct j as [|j]; [simpl; lia|]); lia|]).
  lia.
Qed.

Lemma wsum_between (data : Z) (i j : nat) :
  (i <= j < 8)%nat ->
  (forall k, (k < 8)%nat -> Z.testbit data (Z.of_nat k) = true -> (i <= k <= j)%nat) ->
  forall count from, (from + count <= 8)%nat ->
    nth i w 0 * bsum data from count <= wsum data from count
    <= nth j w 0 * bsum data from count.
Proof.
  intros Hij Hlit.
  induction count as [|n IH]; intros from Hle; cbn [wsum bsum].
  - lia.
  - specialize (IH (S from) ltac:(lia)).
    rewrite sensor_bit_testbit.
    destruct (Z.testbit data (Z.of_nat from)) eqn:E; cbn [Z.b2z].
    + destruct (Hlit from ltac:(lia) E) as [Hi Hj].
      pose proof (w_increasing i from ltac:(lia)).
      pose proof (w_increasing from j ltac:(lia)).
      lia.
    + lia.
Qed.

(** X3.  If every set sensor lies between sensors [i] and [j], the position lies
    between their weights: the estimate never leaves the span of the sensors
    that see the line. *)
Theorem Reflectance_Position_between (data : Z) (i j : nat) :
  0 <= data < 256 -> data <> 0 -> (i <= j < 8)%nat ->
  (forall k, (k < 8)%nat -> Z.testbit data (Z.of_nat k) = true -> (i <= k <= j)%nat) ->
  exists p, Reflectance_Position data = Ok p /\ nth i w 0 <= p <= nth j w 0.
Proof.
  intros Hr Hnz Hij Hlit.
  eexists; split; [now apply Reflectance_Position_defined|].
  apply quot_bounds.
  - now apply bsum_pos.
  - apply (wsum_between data i j Hij Hlit 8 0). lia.
Qed.

Lemma Reflectance_Position_between_witness :
  exists p, Reflectance_Position 0x06 = Ok p /\ nth 1 w 0 <= p <= nth 2 w 0.
Proof.
  apply (Reflectance_Position_between 0x06 1 2); try lia.
  intros k Hk.
  do 8 (destruct k as [|k]; [simpl; intros; (lia || discriminate)|]). lia.
Defined.

(** X4.  A snapshot that is its own mirror image (bit [i] equals bit [7-i]) has
    position exactly 0. *)
Theorem Reflectance_Position_palindrome (data : Z) :
  0 <= data < 256 -> data <> 0 ->
  (forall i, 0 <= i <= 7 -> Z.testbit data i = Z.testbit data (7 - i)) ->
  Reflectance_Position data = Ok 0.
Proof.
  intros Hr Hnz Hpal.
  rewrite Reflectance_Position_defined by assumption.
  assert (Hw : wsum data 0 8 = 0).
  { cbn [wsum]. rewrite !sensor_bit_testbit.
    rewrite (Hpal (Z.of_nat 0)), (Hpal (Z.of_nat 1)),
            (Hpal (Z.of_nat 2)), (Hpal (Z.of_nat 3)) by lia.
    cbn [nth w]. simpl Z.of_nat. simpl (7 - _).
    destruct (Z.testbit data 7), (Z.testbit data 6),
             (Z.testbit data 5), (Z.testbit data 4); reflexivity. }
  rewrite Hw. reflexivity.
Qed.

Lemma Reflectance_Position_palindrome_witness :
  Reflectance_Position 0x24 = Ok 0.
Proof.
  apply (Reflectance_Position_palindrome 0x24); try lia.
  intros i Hi.
  assert (Hc : i = 0 \/ i = 1 \/ i = 2 \/ i = 3 \/
               i = 4 \/ i = 5 \/ i = 6 \/ i = 7) by lia.
  repeat destruct Hc as [-> | Hc]; try subst i; reflexivity.
Defined.

(* ===================================================================== *)
(** ** Read-modify-write on registers, bit by bit *)
(* ===================================================================== *)

Lemma to_uint8_bit (x k : Z) :
  Z.testbit (to_uint8 x) k = (k <? 8) && Z.testbit x k.
Proof.
  destruct (Z_lt_le_dec k 0) as [Hneg|Hk].
  - rewrite !Z.testbit_neg_r by assumption. now rewrite andb_false_r.
  - unfold to_uint8. now rewrite Z.testbit_mod_pow2 by lia.
Qed.

Lemma to_uint32_bit (x k : Z) :
  Z.testbit (to_uint32 x) k = (k <? 32) && Z.testbit x k.
Proof.
  destruct (Z_lt_le_dec k 0) as [Hneg|Hk].
  - rewrite !Z.testbit_neg_r by assumption. now rewrite andb_false_r.
  - unfold to_uint32. now rewrite Z.testbit_mod_pow2 by lia.
Qed.

(** [x &= ~m] on an 8-bit register. *)
Lemma clear_bit (m x k : Z) :
  Z.testbit (to_uint8 (Z.land x (Z.lnot m))) k
  = (k <? 8) && (Z.testbit x k && negb (Z.testbit m k)).
Proof.
  rewrite to_uint8_bit.
  destruct (Z_lt_le_dec k 0) as [Hneg|Hk].
  - now rewrite !Z.testbit_neg_r by assumption.
  - now rewrite Z.land_spec, Z.lnot_spec by assumption.
Qed.

(** [x |= m] on an 8-bit register. *)
Lemma set_bit (m x k : Z) :
  Z.testbit (to_uint8 (Z.lor x m)) k
  = (k <? 8) && (Z.testbit x k || Z.testbit m k).
Proof. now rewrite to_uint8_bit, Z.lor_spec. Qed.

(** Replaces the bits of closed constants by their values. *)
Ltac const_bits :=
  repeat match goal with
         | |- context [Z.testbit ?m ?k] =>
             let b := eval vm_compute in (Z.testbit m k) in
             match b with
             | true => change (Z.testbit m k) with true
             | false => change (Z.testbit m k) with false
             end
         | |- context [Z.ltb ?a ?b] =>
             let c := eval vm_compute in (Z.ltb a b) in
             match c with
             | true => change (Z.ltb a b) with true
             | false => change (Z.ltb a b) with false
             end
         end.

(** Decides a goal about bit [k] of registers updated with [&= ~m] and
    [|= m], once [k] is a numeral. *)
Ltac rmw_bits :=
  unfold reg_bit;
  rewrite ?clear_bit, ?set_bit, ?to_uint8_bit;
  const_bits;
  repeat match goal with
         | |- context [Z.testbit ?x ?k] => destruct (Z.testbit x k)
         end;
  try reflexivity; try discriminate.

Lemma clear_idem (m x : Z) :
  to_uint8 (Z.land (to_uint8 (Z.land x (Z.lnot m))) (Z.lnot m))
  = to_uint8 (Z.land x (Z.lnot m)).
Proof.
  apply Z.bits_inj'; intros k _. rewrite !clear_bit.
  destruct (k <? 8), (Z.testbit x k), (Z.testbit m k); reflexivity.
Qed.

Lemma set_idem (m x : Z) :
  to_uint8 (Z.lor (to_uint8 (Z.lor x m)) m) = to_uint8 (Z.lor x m).
Proof.
  apply Z.bits_inj'; intros k _. rewrite !set_bit.
  destruct (k <? 8), (Z.testbit x k), (Z.testbit m k); reflexivity.
Qed.

(** Switching a pin on and off again, twice in a row, ends where once
    does. *)
Lemma set_clear_idem (m x : Z) :
  let pulse y := to_uint8 (Z.land (to_uint8 (Z.lor y m)) (Z.lnot m)) in
  pulse (pulse x) = pulse x.
Proof.
  intros pulse. unfold pulse.
  apply Z.bits_inj'; intros k _. rewrite !clear_bit, !set_bit, !clear_bit, !set_bit.
  destruct (k <? 8), (Z.testbit x k), (Z.testbit m k); reflexivity.
Qed.

Lemma clear_all (x : Z) : to_uint8 (Z.land x (Z.lnot 0xFF)) = 0.
Proof.
  apply Z.bits_inj'; intros k Hk. rewrite clear_bit, Z.bits_0.
  byte_index k; try lia; const_bits; rewrite ?andb_false_r; try reflexivity.
Qed.

(* ===================================================================== *)
(** ** The registers each driver call leaves behind *)
(* ===================================================================== *)

Lemma Reflectance_Init_regs (d : Device) (r : Reg) :
  regs (after Reflectance_Init d) r
  = match r with
    | GPIO P5 (SEL0 | SEL1 | OUT) => to_uint8 (Z.land (regs d r) (Z.lnot 0x08))
    | GPIO P5 (DIR | DS) => to_uint8 (Z.lor (regs d r) 0x08)
    | GPIO P9 (SEL0 | SEL1 | OUT) => to_uint8 (Z.land (regs d r) (Z.lnot 0x04))
    | GPIO P9 (DIR | DS) => to_uint8 (Z.lor (regs d r) 0x04)
    | GPIO P7 (SEL0 | SEL1 | DIR | REN) => to_uint8 (Z.land (regs d r) (Z.lnot 0xFF))
    | _ => regs d r
    end.
Proof. destruct r as [[] [] | n | n]; reflexivity. Qed.

Lemma Reflectance_Read_regs (time : Z) (d : Device) (r : Reg) :
  regs (after (Reflectance_Read time) d) r
  = match r with
    | GPIO P5 OUT =>
        to_uint8 (Z.land (to_uint8 (Z.lor (regs d r) 0x08)) (Z.lnot 0x08))
    | GPIO P9 OUT =>
        to_uint8 (Z.land (to_uint8 (Z.lor (regs d r) 0x04)) (Z.lnot 0x04))
    | GPIO P7 DIR => 0
    | GPIO P7 OUT => 0xFF
    | _ => regs d r
    end.
Proof. destruct r as [[] [] | n | n]; reflexivity. Qed.

Lemma at_sampling_regs (time : Z) (d : Device) (r : Reg) :
  regs (at_sampling time d) r
  = match r with
    | GPIO P5 OUT => to_uint8 (Z.lor (regs d r) 0x08)
    | GPIO P9 OUT => to_uint8 (Z.lor (regs d r) 0x04)
    | GPIO P7 DIR => 0
    | GPIO P7 OUT => 0xFF
    | _ => regs d r
    end.
Proof. destruct r as [[] [] | n | n]; reflexivity. Qed.

Lemma BumpInt_Init_all_regs (d : Device) (r : Reg) :
  regs (after BumpInt_Init d) r
  = match r with
    | GPIO P4 (SEL0 | SEL1 | DIR | IFG) => to_uint8 (Z.land (regs d r) (Z.lnot 0xED))
    | GPIO P4 (REN | OUT | IES | IE) => to_uint8 (Z.lor (regs d r) 0xED)
    | NVIC_IP n =>
        if Nat.eq_dec n 9
        then to_uint32 (Z.lor (Z.land (regs d (NVIC_IP 9)) 0xFF0FFFFF) 0x00200000)
        else regs d r
    | NVIC_ISER n => if Nat.eq_dec n 1 then 0x40 else regs d r
    | _ => regs d r
    end.
Proof.
  destruct r as [[] [] | n | n]; try reflexivity.
  - do 10 (destruct n as [|n]; [reflexivity|]). reflexivity.
  - do 2 (destruct n as [|n]; [reflexivity|]). reflexivity.
Qed.

(* ===================================================================== *)
(** ** [Reflectance_Init] *)
(* ===================================================================== *)

(** X5.  After [Reflectance_Init] the two LED pins P5.3 and P9.2 are GPIO outputs
    with high drive strength driving low (LEDs off), and the eight sensor
    pins of Port 7 are GPIO inputs without pull resistors, whatever the
    registers held before. *)
Theorem Reflectance_Init_configures (d : Device) :
  let d' := after Reflectance_Init d in
  (reg_bit d' (GPIO P5 SEL0) 3 = false /\ reg_bit d' (GPIO P5 SEL1) 3 = false /\
   reg_bit d' (GPIO P5 DIR) 3 = true /\ reg_bit d' (GPIO P5 DS) 3 = true /\
   reg_bit d' (GPIO P5 OUT) 3 = false) /\
  (reg_bit d' (GPIO P9 SEL0) 2 = false /\ reg_bit d' (GPIO P9 SEL1) 2 = false /\
   reg_bit d' (GPIO P9 DIR) 2 = true /\ reg_bit d' (GPIO P9 DS) 2 = true /\
   reg_bit d' (GPIO P9 OUT) 2 = false) /\
  (regs d' (GPIO P7 SEL0) = 0 /\ regs d' (GPIO P7 SEL1) = 0 /\
   regs d' (GPIO P7 DIR) = 0 /\ regs d' (GPIO P7 REN) = 0).
Proof.
  intros d'. subst d'. unfold reg_bit.
  rewrite !Reflectance_Init_regs.
  repeat split; try apply clear_all; rmw_bits.
Qed.

(** X6.  Calling [Reflectance_Init] a second time changes no register. *)
Theorem Reflectance_Init_idempotent (d : Device) (r : Reg) :
  regs (after Reflectance_Init (after Reflectance_Init d)) r
  = regs (after Reflectance_Init d) r.
Proof.
  rewrite (Reflectance_Init_regs (after Reflectance_Init d)).
  rewrite !Reflectance_Init_regs.
  destruct r as [[] [] | n | n];
    auto using clear_idem, set_idem.
Qed.

(** X7.  [Reflectance_Init] touches nothing but bit 3 of the Port 5 registers,
    bit 2 of the Port 9 registers and Port 7: the other pins of Ports 5 and
    9, Port 4, the NVIC and the global interrupt enable are left alone. *)
Theorem Reflectance_Init_frame (d : Device) :
  let d' := after Reflectance_Init d in
  (forall f k, 0 <= k < 8 -> k <> 3 ->
               reg_bit d' (GPIO P5 f) k = reg_bit d (GPIO P5 f) k) /\
  (forall f k, 0 <= k < 8 -> k <> 2 ->
               reg_bit d' (GPIO P9 f) k = reg_bit d (GPIO P9 f) k) /\
  (forall f, regs d' (GPIO P4 f) = regs d (GPIO P4 f)) /\
  (forall n, regs d' (NVIC_IP n) = regs d (NVIC_IP n)) /\
  (forall n, regs d' (NVIC_ISER n) = regs d (NVIC_ISER n)) /\
  irq d' = irq d.
Proof.
  intros d'. subst d'.
  repeat split; try reflexivity.
  - intros f k Hk Hne. unfold reg_bit. rewrite Reflectance_Init_regs.
    byte_index k; try lia; destruct f; rmw_bits.
  - intros f k Hk Hne. unfold reg_bit. rewrite Reflectance_Init_regs.
    byte_index k; try lia; destruct f; rmw_bits.
Qed.

(* ===================================================================== *)
(** ** [Reflectance_Read], [Reflectance_Center] and the split-phase pair *)
(* ===================================================================== *)

(** X8.  The pins are sampled with both LED outputs on and Port 7 switched to
    input while its output latch holds 0xFF, after the capacitors were driven
    high for 10 us and then left to decay for the requested time. *)
Theorem sampling_conditions (time : Z) (d : Device) :
  let s := at_sampling time d in
  reg_bit s (GPIO P5 OUT) 3 = true /\
  reg_bit s (GPIO P9 OUT) 2 = true /\
  regs s (GPIO P7 DIR) = 0 /\
  regs s (GPIO P7 OUT) = 0xFF /\
  firstn 5 (history s)
  = [EvDelay (to_uint32 time); EvStore (GPIO P7 DIR) 0x00; EvDelay 10;
     EvStore (GPIO P7 OUT) 0xFF; EvStore (GPIO P7 DIR) 0xFF].
Proof.
  intros s. subst s. unfold reg_bit.
  rewrite !at_sampling_regs.
  repeat split; rmw_bits.
Qed.

(** X9.  When [Reflectance_Read] returns, the LEDs are off again, Port 7 is left
    as input with 0xFF in its output latch, and the snapshot is an 8-bit
    value. *)
Theorem Reflectance_Read_leaves_idle (time : Z) (d : Device) :
  let d' := after (Reflectance_Read time) d in
  reg_bit d' (GPIO P5 OUT) 3 = false /\
  reg_bit d' (GPIO P9 OUT) 2 = false /\
  regs d' (GPIO P7 DIR) = 0 /\
  regs d' (GPIO P7 OUT) = 0xFF /\
  0 <= fst (Reflectance_Read time d) < 256.
Proof.
  intros d'. subst d'. unfold reg_bit.
  rewrite !Reflectance_Read_regs.
  repeat split; try apply to_uint8_range; rmw_bits.
Qed.

(** X10.  [Reflectance_Read] changes only the LED bits P5.3 and P9.2 of the two
    OUT registers and the DIR and OUT registers of Port 7; every other
    register and the global interrupt enable are as before. *)
Theorem Reflectance_Read_frame (time : Z) (d : Device) :
  let d' := after (Reflectance_Read time) d in
  (forall k, 0 <= k < 8 -> k <> 3 ->
             reg_bit d' (GPIO P5 OUT) k = reg_bit d (GPIO P5 OUT) k) /\
  (forall k, 0 <= k < 8 -> k <> 2 ->
             reg_bit d' (GPIO P9 OUT) k = reg_bit d (GPIO P9 OUT) k) /\
  (forall r, r <> GPIO P5 OUT -> r <> GPIO P9 OUT ->
             r <> GPIO P7 DIR -> r <> GPIO P7 OUT ->
             regs d' r = regs d r) /\
  irq d' = irq d.
Proof.
  intros d'. subst d'.
  repeat split; try reflexivity.
  - intros k Hk Hne. unfold reg_bit. rewrite Reflectance_Read_regs.
    byte_index k; try lia; rmw_bits.
  - intros k Hk Hne. unfold reg_bit. rewrite Reflectance_Read_regs.
    byte_index k; try lia; rmw_bits.
  - intros r H1 H2 H3 H4. rewrite Reflectance_Read_regs.
    destruct r as [[] [] | n | n]; congruence.
Qed.

(** X11.  A second [Reflectance_Read] leaves every register as the first one
    did: reads can be repeated without the configuration drifting. *)
Theorem Reflectance_Read_repeatable (t1 t2 : Z) (d : Device) (r : Reg) :
  regs (after (Reflectance_Read t2) (after (Reflectance_Read t1) d)) r
  = regs (after (Reflectance_Read t1) d) r.
Proof.
  rewrite (Reflectance_Read_regs t2).
  rewrite !Reflectance_Read_regs.
  destruct r as [[] [] | n | n]; try reflexivity.
  - apply (set_clear_idem 0x08).
  - apply (set_clear_idem 0x04).
Qed.

(** X12.  [Reflectance_Center] is [Reflectance_Read] with the snapshot reduced to
    its two center bits: it leaves the same device behind, its code is
    [(snapshot & 0x18) >> 3] of the snapshot [Reflectance_Read] returns, and
    the code is between 0 and 3. *)
Theorem Reflectance_Center_from_Read (time : Z) (d : Device) :
  Reflectance_Center time d
  = (Z.shiftr (Z.land (fst (Reflectance_Read time d)) 0x18) 3,
     after (Reflectance_Read time) d) /\
  0 <= fst (Reflectance_Center time d) <= 3.
Proof.
  assert (Hc : forall x, 0 <= Z.shiftr (Z.land x 0x18) 3 <= 3).
  { intros x. rewrite center_bits.
    destruct (Z.testbit x 3), (Z.testbit x 4); simpl; lia. }
  assert (Hfst : fst (Reflectance_Center time d)
                 = Z.shiftr (Z.land (fst (Reflectance_Read time d)) 0x18) 3).
  { change (fst (Reflectance_Center time d))
      with (to_uint8 (Z.shiftr (Z.land (fst (Reflectance_Read time d)) 0x18) 3)).
    unfold to_uint8. apply Z.mod_small.
    specialize (Hc (fst (Reflectance_Read time d))). change (2 ^ 8) with 256. lia. }
  split.
  - rewrite <- Hfst. reflexivity.
  - rewrite Hfst. apply Hc.
Qed.

(* ===================================================================== *)
(** ** [BumpInt_Init] *)
(* ===================================================================== *)

(** X13.  Each of the six bump pins (P4.0, P4.2, P4.3, P4.5, P4.6, P4.7) ends up a
    GPIO input with its pull resistor enabled and pulling up, interrupting
    on the falling edge, with no interrupt pending and its interrupt armed,
    whatever the registers held before. *)
Theorem BumpInt_Init_configures (d : Device) (k : Z) :
  In k bump_pins ->
  let d' := after BumpInt_Init d in
  reg_bit d' (GPIO P4 SEL0) k = false /\ reg_bit d' (GPIO P4 SEL1) k = false /\
  reg_bit d' (GPIO P4 DIR) k = false /\
  reg_bit d' (GPIO P4 REN) k = true /\ reg_bit d' (GPIO P4 OUT) k = true /\
  reg_bit d' (GPIO P4 IES) k = true /\
  reg_bit d' (GPIO P4 IFG) k = false /\
  reg_bit d' (GPIO P4 IE) k = true.
Proof.
  intros Hk d'. subst d'. unfold reg_bit.
  rewrite !BumpInt_Init_all_regs.
  unfold bump_pins in Hk. simpl in Hk.
  repeat (destruct Hk as [<- | Hk]); try contradiction;
    repeat split; rmw_bits.
Qed.

Lemma BumpInt_Init_configures_witness :
  let d' := after BumpInt_Init (idle_device (fun _ => 0xFF)) in
  reg_bit d' (GPIO P4 SEL0) 5 = false /\ reg_bit d' (GPIO P4 SEL1) 5 = false /\
  reg_bit d' (GPIO P4 DIR) 5 = false /\
  reg_bit d' (GPIO P4 REN) 5 = true /\ reg_bit d' (GPIO P4 OUT) 5 = true /\
  reg_bit d' (GPIO P4 IES) 5 = true /\
  reg_bit d' (GPIO P4 IFG) 5 = false /\
  reg_bit d' (GPIO P4 IE) 5 = true.
Proof.
  apply (BumpInt_Init_configures (idle_device (fun _ => 0xFF)) 5).
  simpl. tauto.
Defined.

Lemma priority_bits (x k : Z) :
  Z.testbit (to_uint32 (Z.lor (Z.land x 0xFF0FFFFF) 0x00200000)) k
  = (k <? 32) && (Z.testbit x k && Z.testbit 0xFF0FFFFF k || Z.testbit 0x00200000 k).
Proof. now rewrite to_uint32_bit, Z.lor_spec, Z.land_spec. Qed.

Lemma BumpInt_Init_irq (d : Device) : irq (after BumpInt_Init d) = true.
Proof. reflexivity. Qed.

Lemma priority_idem (x : Z) :
  let prio y := to_uint32 (Z.lor (Z.land y 0xFF0FFFFF) 0x00200000) in
  prio (prio x) = prio x.
Proof.
  intros prio. unfold prio.
  apply Z.bits_inj'; intros k _. rewrite !priority_bits.
  destruct (k <? 32), (Z.testbit x k), (Z.testbit 0xFF0FFFFF k),
    (Z.testbit 0x00200000 k); reflexivity.
Qed.

(** X14.  Calling [BumpInt_Init] a second time changes no register and leaves
    interrupts enabled. *)
Theorem BumpInt_Init_idempotent (d : Device) :
  (forall r, regs (after BumpInt_Init (after BumpInt_Init d)) r
             = regs (after BumpInt_Init d) r) /\
  irq (after BumpInt_Init (after BumpInt_Init d)) = irq (after BumpInt_Init d).
Proof.
  split; [|now rewrite !BumpInt_Init_irq].
  intros r.
  rewrite (BumpInt_Init_all_regs (after BumpInt_Init d)).
  rewrite !BumpInt_Init_all_regs.
  destruct r as [[] [] | n | n]; auto using clear_idem, set_idem.
  - destruct (Nat.eq_dec n 9) as [-> | Hn]; [|reflexivity].
    change (if Nat.eq_dec 9 9 then ?a else ?b) with a.
    apply priority_idem.
  - destruct (Nat.eq_dec n 1); reflexivity.
Qed.

(** X15.  [BumpInt_Init] stores to Port 4, [NVIC->IP[9]] and [NVIC->ISER[1]]
    only: the registers of Ports 5, 7 and 9, which the reflectance sensor
    uses, and every other NVIC register are untouched.  It ends with
    interrupt 38 (Port 4) enabled in [NVIC->ISER[1]] and interrupts enabled
    globally. *)
Theorem BumpInt_Init_elsewhere (d : Device) :
  let d' := after BumpInt_Init d in
  (forall p f, p <> P4 -> regs d' (GPIO p f) = regs d (GPIO p f)) /\
  (forall n, n <> 9%nat -> regs d' (NVIC_IP n) = regs d (NVIC_IP n)) /\
  (forall n, n <> 1%nat -> regs d' (NVIC_ISER n) = regs d (NVIC_ISER n)) /\
  regs d' (NVIC_ISER 1) = 2 ^ (38 - 32) /\
  irq d' = true.
Proof.
  intros d'. subst d'.
  repeat split.
  - intros p f Hp. rewrite BumpInt_Init_all_regs.
    destruct p; [congruence | reflexivity ..].
  - intros n Hn. rewrite BumpInt_Init_all_regs.
    destruct (Nat.eq_dec n 9); [congruence | reflexivity].
  - intros n Hn. rewrite BumpInt_Init_all_regs.
    destruct (Nat.eq_dec n 1); [congruence | reflexivity].
Qed.

(** X16.  The two initializations can be called in either order: the registers
    and the interrupt enable end up the same. *)
Theorem Init_order_irrelevant (d : Device) :
  (forall r, regs (after BumpInt_Init (after Reflectance_Init d)) r
             = regs (after Reflectance_Init (after BumpInt_Init d)) r) /\
  irq (after BumpInt_Init (after Reflectance_Init d))
  = irq (after Reflectance_Init (after BumpInt_Init d)).
Proof.
  split; [|now rewrite BumpInt_Init_irq].
  intros r.
  rewrite (BumpInt_Init_all_regs (after Reflectance_Init d)).
  rewrite (Reflectance_Init_regs (after BumpInt_Init d)).
  rewrite !BumpInt_Init_all_regs, !Reflectance_Init_regs.
  destruct r as [[] [] | n | n]; reflexivity.
Qed.
